(** * The Todo service of app.ts: an in-memory store behind five HTTP handlers

    The program keeps two module-level variables, the counter [idGenerator]
    and the array [todos], and registers one Express handler per route.  Each
    handler runs to completion before the next request is looked at, so a
    handler is a function from the store to a response and a new store.

    What is modelled, and how:
    - a JS object coming out of the JSON body parser is a finite map from
      property names to values ([gmap string value]); the order of the
      properties is not observable by the handlers and is left out;
    - property values are the JSON scalars (null, booleans, numbers, strings):
      the interfaces [Todo] and [TodoNoId] declare [id: number],
      [title: string] and [description?: string], and the handlers never look
      inside a value;
      [undefined] is the result of reading a property that is not there;
      nested objects and arrays as property values are outside the model;
    - a JS number is [NaN], an integral double [Int z], or any other double
      [Dbl r] named by the text that Number::toString prints for it (that text
      determines the double); [Int 0] stands for both zeros, which [===],
      template literals and JSON output do not tell apart;
    - a template literal prints [Int z] as Number::toString does: all the
      digits of an integer up to 2^53, the shortest decimal that reads back
      as the double above that, in exponent form from 10^21 on;
    - the counter counts in [Z]: adding one to a JS number is exact below
      2^53, far beyond what a run of the service reaches;
    - [Number(req.params['id'])] is the built-in conversion of the language,
      not code of this program: the handlers take it as a parameter;
    - [console.log], the Swagger routes and [app.listen] do not touch the
      store and are left out. *)

From stdpp Require Import base option list sorting strings pretty gmap fin_maps.

Open Scope Z_scope.

(** ** Values *)

Inductive number :=
  | NaN
  | Int (z : Z)
  | Dbl (repr : string).

Inductive value :=
  | undefined
  | null
  | VBool (b : bool)
  | VNumber (n : number)
  | VString (s : string).

(** [a === b] on numbers: NaN is different from everything, itself included. *)
Definition number_eq (a b : number) : bool :=
  match a, b with
  | Int x, Int y => bool_decide (x = y)
  | Dbl r, Dbl r' => bool_decide (r = r')
  | _, _ => false
  end.

(** [a === b]: same type and same value, no conversion. *)
Definition strict_eq (a b : value) : bool :=
  match a, b with
  | undefined, undefined => true
  | null, null => true
  | VBool x, VBool y => bool_decide (x = y)
  | VNumber x, VNumber y => number_eq x y
  | VString x, VString y => bool_decide (x = y)
  | _, _ => false
  end.

(** ** Number::toString on integral doubles *)

(** The double nearest to the integer [m > 0], a tie going to the even
    mantissa; [None] when that is past the largest double (Infinity). *)
Definition nearest_double (m : Z) : option Z :=
  let b := Z.log2 m in
  if b <? 53 then Some m
  else
    let e := b - 52 in
    let q := m / 2 ^ e in
    let r := m mod 2 ^ e in
    let half := 2 ^ (e - 1) in
    let q' := if (half <? r) || ((r =? half) && Z.odd q) then q + 1 else q in
    if 2 ^ 1024 <=? q' * 2 ^ e then None else Some (q' * 2 ^ e).

(** The digits [s] and the power of ten [p] that Number::toString picks for
    the double [x]: [s * 10 ^ p] reads back as [x] with [s] as short as can
    be, and as close to [x] as can be among the decimals that short.  The
    search goes down from the largest power; at each power the two multiples
    around [x] are the only candidates. *)
Fixpoint shortest_decimal (x : Z) (p : nat) : Z * nat :=
  let scale := 10 ^ Z.of_nat p in
  let lo := x / scale in
  let hi := lo + 1 in
  let reads_back s := (0 <? s) && bool_decide (nearest_double (s * scale) = Some x) in
  let chosen :=
    match reads_back lo, reads_back hi with
    | true, true =>
        let below := x - lo * scale in
        let above := hi * scale - x in
        if below <? above then Some lo
        else if above <? below then Some hi
        else Some (if Z.even lo then lo else hi)
    | true, false => Some lo
    | false, true => Some hi
    | false, false => None
    end in
  match chosen, p with
  | Some s, _ => (s, p)
  | None, O => (x, O)
  | None, S p' => shortest_decimal x p'
  end.

(** The text for an integral double [x > 0]: the digits followed by zeros
    when there are at most 21 places, the exponent form [d.ddde+n] beyond. *)
Definition print_double (x : Z) : string :=
  let '(s, p) := shortest_decimal x (String.length (pretty x)) in
  let n := Z.of_nat (String.length (pretty s)) + Z.of_nat p in
  if n <=? 21 then pretty (s * 10 ^ Z.of_nat p)
  else
    let exponent := "e+" +:+ pretty (n - 1) in
    match pretty s with
    | String c EmptyString => String c exponent
    | String c rest => String c ("." +:+ rest +:+ exponent)
    | EmptyString => exponent
    end.

(** The text for an integer [z >= 0].  Up to 2^53 every integer is a double
    of its own and is printed with all its digits; a larger one is printed as
    the double it denotes. *)
Definition print_integer (z : Z) : string :=
  if z <=? 9007199254740992 then pretty z
  else
    match nearest_double z with
    | Some x => print_double x
    | None => "Infinity"
    end.

(** What a template literal [`${v}`] prints for [v]. *)
Definition number_to_string (n : number) : string :=
  match n with
  | NaN => "NaN"
  | Int z => if z <? 0 then "-" +:+ print_integer (- z) else print_integer z
  | Dbl r => r
  end.

Definition ToString (v : value) : string :=
  match v with
  | undefined => "undefined"
  | null => "null"
  | VBool true => "true"
  | VBool false => "false"
  | VNumber n => number_to_string n
  | VString s => s
  end.

(** ** Objects *)

Abbreviation object := (gmap string value).

(** [o.k], [undefined] when [o] has no property [k]. *)
Definition get (o : object) (k : string) : value := default undefined (o !! k).

(** [{ ...a, ...b }]: the properties of [b] win. *)
Definition spread (a b : object) : object := b ∪ a.

(** ** Arrays: the three methods the handlers call *)

(** [l.findIndex(p)]: the position of the first element that satisfies [p];
    [None] is the -1 of the source. *)
Fixpoint findIndex {A : Type} (p : A → bool) (l : list A) : option nat :=
  match l with
  | [] => None
  | x :: l' => if p x then Some 0%nat else S <$> findIndex p l'
  end.

(** [l.find(p)]: the first element that satisfies [p]; [None] is [undefined]. *)
Fixpoint find {A : Type} (p : A → bool) (l : list A) : option A :=
  match l with
  | [] => None
  | x :: l' => if p x then Some x else find p l'
  end.

(** [l.splice(i, 1)]: the removed elements and what is left of [l]. *)
Definition splice1 {A : Type} (i : nat) (l : list A) : list A * list A :=
  (take 1 (drop i l), take i l ++ drop (S i) l).

(** ** The store and the handler monad *)

Record Store := mkStore {
  idGenerator : Z;
  todos : list object;
}.

Definition M (A : Type) : Type := Store → A * Store.

#[global] Instance M_ret : MRet M := λ A a s, (a, s).
#[global] Instance M_bind : MBind M := λ A B f m s, let '(a, s') := m s in f a s'.

(** [idGenerator++]: the value before the increment. *)
Definition post_increment : M value :=
  λ s, (VNumber (Int (idGenerator s)), mkStore (idGenerator s + 1) (todos s)).

(** [function newId() { return idGenerator++; }] *)
Definition newId : M value := post_increment.

Definition read_todos : M (list object) := λ s, (todos s, s).
Definition write_todos (l : list object) : M unit := λ s, (tt, mkStore (idGenerator s) l).

(** [todos.push(t)] *)
Definition push (t : object) : M unit :=
  l ← read_todos; write_todos (l ++ [t]).

(** [todos[idx] = t]; every [idx] the handlers use is in range, where this is
    the list update. *)
Definition assign (idx : nat) (t : object) : M unit :=
  l ← read_todos; write_todos (<[idx := t]> l).

(** [todos.splice(idx, 1)[0]] *)
Definition splice_first (idx : nat) : M (option object) :=
  l ← read_todos;
  let '(removed, rest) := splice1 idx l in
  write_todos rest;; mret (head removed).

(** ** Module initialisation *)

Definition seed (title : string) : M object :=
  id ← post_increment; mret ({["id" := id; "title" := VString title]} : object).

Fixpoint seed_all (titles : list string) : M (list object) :=
  match titles with
  | [] => mret []
  | t :: ts => o ← seed t; os ← seed_all ts; mret (o :: os)
  end.

(** [let idGenerator = 1; const todos = [ ... four literals ... ];] *)
Definition initial : Store :=
  snd ((l ← seed_all ["Learn TypeScript"; "Learn Angular"; "Learn NodeJs"; "Learn Express"];
        write_todos l) (mkStore 1 [])).


(** ** Responses *)

Inductive Body :=
  | Json (o : object)            (* res.send(an object) *)
  | JsonArray (l : list object)  (* res.send(an array of objects) *)
  | Text (s : string)            (* res.send(a string) *)
  | NoBody.                      (* res.send(undefined) *)

Record Response := mkResponse {
  status : Z;
  body : Body;
}.

(** [res.send(b)] answers with the default status 200, [res.status(c).send(b)]
    with [c]. *)
Definition send (b : Body) : Response := mkResponse 200 b.
Definition status_send (c : Z) (b : Body) : Response := mkResponse c b.

Definition json_or_nothing (o : option object) : Body :=
  match o with
  | Some t => Json t
  | None => NoBody
  end.

Definition not_found_message (id : value) : string :=
  "Todo entity not found by id: " +:+ ToString id.

(** The callback [(todo) => todo.id === id]. *)
Definition id_is (id : value) (todo : object) : bool := strict_eq (get todo "id") id.

(** ** The handlers *)

Inductive Request :=
  | GET_todos
  | POST_todos (body : object)
  | GET_todos_id (id : string)
  | PUT_todos (body : object)
  | DELETE_todos_id (id : string).

Section Handlers.

(** The conversion [Number(s)] of a path parameter. *)
Variable Number : string → number.

(** [app.get('/api/todos', ...)] *)
Definition list_handler : M Response :=
  l ← read_todos; mret (send (JsonArray l)).

(** [app.post('/api/todos', ...)] *)
Definition post_handler (item : object) : M Response :=
  id ← newId;
  let newTodo := spread {["id" := id]} item in
  push newTodo;;
  mret (send (Json newTodo)).

(** [app.get('/api/todos/:id', ...)] *)
Definition get_handler (param : string) : M Response :=
  let id := VNumber (Number param) in
  l ← read_todos;
  match find (id_is id) l with
  | Some found => mret (send (Json found))
  | None => mret (status_send 404 (Text (not_found_message id)))
  end.

(** [app.put('/api/todos', ...)] *)
Definition put_handler (item : object) : M Response :=
  l ← read_todos;
  match findIndex (id_is (get item "id")) l with
  | Some idx =>
      let updatedTodo := spread (default ∅ (l !! idx)) item in
      assign idx updatedTodo;;
      mret (send (Json updatedTodo))
  | None => mret (status_send 404 (Text (not_found_message (get item "id"))))
  end.

(** [app.delete('/api/todos/:id', ...)] *)
Definition delete_handler (param : string) : M Response :=
  let id := VNumber (Number param) in
  l ← read_todos;
  match findIndex (id_is id) l with
  | Some idx =>
      deletedTodo ← splice_first idx;
      mret (send (json_or_nothing deletedTodo))
  | None => mret (status_send 404 (Text (not_found_message id)))
  end.

Definition handle (r : Request) : M Response :=
  match r with
  | GET_todos => list_handler
  | POST_todos item => post_handler item
  | GET_todos_id p => get_handler p
  | PUT_todos item => put_handler item
  | DELETE_todos_id p => delete_handler p
  end.

(** Requests are served one after the other. *)
Fixpoint serve (rs : list Request) : M (list Response) :=
  match rs with
  | [] => mret []
  | r :: rs' => a ← handle r; as' ← serve rs'; mret (a :: as')
  end.

End Handlers.

(** A conversion for concrete runs: the value of a string of decimal digits,
    NaN for a string with any other character in it.  It gives what [Number]
    gives on the paths used below ("2" is 2, "abc" is NaN); the theorems hold
    for every conversion. *)
Definition digit_value (c : Ascii.ascii) : option Z :=
  let n := Z.of_N (Ascii.N_of_ascii c) in
  if bool_decide (48 ≤ n ≤ 57) then Some (n - 48) else None.

Fixpoint digits_value (acc : Z) (s : string) : option Z :=
  match s with
  | EmptyString => Some acc
  | String c s' => d ← digit_value c; digits_value (10 * acc + d) s'
  end.

Definition Number_digits (s : string) : number :=
  match digits_value 0 s with
  | Some z => Int z
  | None => NaN
  end.

(** ** Sample Todos and bodies, for concrete runs *)

Definition todo_1 : object := {["id" := VNumber (Int 1); "title" := VString "Learn TypeScript"]}.
Definition todo_2 : object := {["id" := VNumber (Int 2); "title" := VString "Learn Angular"]}.
Definition todo_3 : object := {["id" := VNumber (Int 3); "title" := VString "Learn NodeJs"]}.
Definition todo_4 : object := {["id" := VNumber (Int 4); "title" := VString "Learn Express"]}.

Definition draft_rust : object := {["title" := VString "Learn Rust"]}.
Definition draft_go : object := {["title" := VString "Learn Go"]}.
Definition body_id_1 : object := {["id" := VNumber (Int 1); "title" := VString "Learn TS"]}.
Definition body_id_7 : object := {["id" := VNumber (Int 7); "title" := VString "Learn TS"]}.
Definition body_id_text : object := {["id" := VString "4"; "title" := VString "Learn TS"]}.

(** ** Runs *)

(** The id of the Todo a response carries. *)
Definition returned_id (a : Response) : value :=
  match body a with
  | Json o => get o "id"
  | _ => undefined
  end.

(** The ids returned by the create requests of a run, in order. *)
Fixpoint created_ids (rs : list Request) (answers : list Response) : list value :=
  match rs, answers with
  | POST_todos _ :: rs', a :: answers' => returned_id a :: created_ids rs' answers'
  | _ :: rs', _ :: answers' => created_ids rs' answers'
  | _, _ => []
  end.

(** Every create request of the run carries a draft: a body without [id]. *)
Definition is_draft_request (r : Request) : Prop :=
  match r with
  | POST_todos item => item !! "id" = None
  | _ => True
  end.

(** No two positions of the collection hold the same id. *)
Definition unique_ids (l : list object) : Prop :=
  ∀ i j a b, l !! i = Some a → l !! j = Some b →
    strict_eq (get a "id") (get b "id") = true → i = j.

(** The stores the service can be in: the seeded one and what any sequence
    of requests makes of it. *)
Definition reachable (Number : string → number) (s : Store) : Prop :=
  ∃ rs, snd (serve Number rs initial) = s.

(** The stores in which every Todo has an integer id below the generator and
    no integer occurs twice. *)
Definition well_numbered (s : Store) : Prop :=
  ∃ zs : list Z,
    (λ t, get t "id") <$> todos s = (λ z, VNumber (Int z)) <$> zs
    ∧ NoDup zs
    ∧ Forall (λ z, z < idGenerator s) zs.

(** ** Counting along a run *)

(** The number of create requests in a run. *)
Fixpoint count_creates (rs : list Request) : nat :=
  match rs with
  | [] => 0
  | POST_todos _ :: rs' => S (count_creates rs')
  | _ :: rs' => count_creates rs'
  end.

(** The number of delete requests of a run that were answered with a 200. *)
Fixpoint count_deleted (rs : list Request) (answers : list Response) : nat :=
  match rs, answers with
  | DELETE_todos_id _ :: rs', a :: answers' =>
      if bool_decide (status a = 200) then S (count_deleted rs' answers')
      else count_deleted rs' answers'
  | _ :: rs', _ :: answers' => count_deleted rs' answers'
  | _, _ => 0%nat
  end.

(** The stores whose collection lists integer ids in strictly ascending
    order, all of them below the generator. *)
Definition in_creation_order (s : Store) : Prop :=
  ∃ zs : list Z,
    (λ t, get t "id") <$> todos s = (λ z, VNumber (Int z)) <$> zs
    ∧ StronglySorted Z.lt zs
    ∧ Forall (λ z, z < idGenerator s) zs.

(** Unfolds a handler down to the store it works on. *)
Ltac unfold_handler :=
  unfold get_handler, put_handler, delete_handler, list_handler, post_handler,
    splice_first, assign, push, newId, post_increment, read_todos, write_todos,
    mbind, mret, M_bind, M_ret, send, status_send; simpl.

(** * Facts about the array methods *)

Section ArrayFacts.
Context {A : Type} (p : A → bool).

Lemma findIndex_None (l : list A) :
  findIndex p l = None ↔ Forall (λ x, p x = false) l.
Proof.
  induction l as [|x l IH]; simpl.
  - split; [constructor | done].
  - destruct (p x) eqn:Hx.
    + split; [done |]. inversion 1; congruence.
    + rewrite fmap_None, IH. split.
      * by constructor.
      * by inversion 1.
Qed.

Lemma findIndex_Some (l : list A) (i : nat) :
  findIndex p l = Some i ↔
  ∃ l1 x l2, l = l1 ++ x :: l2 ∧ length l1 = i ∧ p x = true ∧
             Forall (λ y, p y = false) l1.
Proof.
  revert i. induction l as [|x l IH]; intros i; simpl.
  - split; [done |]. intros ([|??] & ? & ? & ? & _); done.
  - destruct (p x) eqn:Hx.
    + split.
      * intros [= <-]. by exists [], x, l.
      * intros ([|y l1] & z & l2 & Heq & Hlen & Hz & Hall); simplify_eq/=; [done |].
        inversion Hall; congruence.
    + rewrite fmap_Some. split.
      * intros (j & Hj & ->). apply IH in Hj as (l1 & z & l2 & -> & <- & Hz & Hall).
        exists (x :: l1), z, l2. repeat split; [done | by constructor].
      * intros ([|y l1] & z & l2 & Heq & Hlen & Hz & Hall); simplify_eq/=; [congruence |].
        exists (length l1). split; [| done]. apply IH.
        exists l1, z, l2. repeat split; [done |]. by inversion Hall.
Qed.

Lemma find_findIndex (l : list A) : find p l = findIndex p l ≫= (l !!.).
Proof.
  induction l as [|x l IH]; simpl; [done |].
  destruct (p x); [done |]. rewrite IH. by destruct (findIndex p l).
Qed.

Lemma find_None (l : list A) : find p l = None ↔ Forall (λ x, p x = false) l.
Proof.
  rewrite <- findIndex_None, find_findIndex.
  destruct (findIndex p l) as [i|] eqn:Hi; simpl; [| done].
  apply findIndex_Some in Hi as (l1 & x & l2 & -> & <- & _).
  by rewrite list_lookup_middle.
Qed.

Lemma splice1_middle (l1 l2 : list A) (x : A) :
  splice1 (length l1) (l1 ++ x :: l2) = ([x], l1 ++ l2).
Proof.
  unfold splice1. rewrite drop_app_length. simpl. rewrite take_0.
  rewrite take_app_length.
  replace (S (length l1)) with (length (l1 ++ [x])) by (rewrite length_app; simpl; lia).
  by rewrite (assoc_L _ l1 [x] l2 : l1 ++ x :: l2 = (l1 ++ [x]) ++ l2), drop_app_length.
Qed.

Lemma findIndex_cases (l : list A) :
  (∃ l1 x l2, l = l1 ++ x :: l2 ∧ Forall (λ y, p y = false) l1 ∧ p x = true)
  ∨ Forall (λ x, p x = false) l.
Proof.
  destruct (findIndex p l) as [i|] eqn:Hi.
  - left. apply findIndex_Some in Hi as (l1 & x & l2 & ? & ? & ? & ?).
    by exists l1, x, l2.
  - right. by apply findIndex_None.
Qed.

Lemma hit_or_miss (l : list A) :
  (∃ x, x ∈ l ∧ p x = true) ∨ (∀ x, x ∈ l → p x = false).
Proof.
  destruct (findIndex_cases l) as [(l1 & x & l2 & -> & _ & Hx)|Hnone].
  - left. exists x. split; [| done]. apply elem_of_app. right. by left.
  - right. by apply Forall_forall.
Qed.

End ArrayFacts.

(** * Facts about values and objects *)

Lemma number_eq_NaN_r (n : number) : number_eq n NaN = false.
Proof. by destruct n. Qed.

Lemma strict_eq_NaN_r (v : value) : strict_eq v (VNumber NaN) = false.
Proof. destruct v; simpl; [done.. | apply number_eq_NaN_r | done]. Qed.

(** Strict equality holds between identical values only. *)
Lemma strict_eq_true (a b : value) : strict_eq a b = true → a = b.
Proof.
  destruct a as [| | |[]|], b as [| | |[]|]; simpl; try done;
    intros ?%bool_decide_eq_true; by subst.
Qed.

Lemma strict_eq_refl_l (a b : value) : strict_eq a b = true → strict_eq a a = true.
Proof. intros H. by rewrite (strict_eq_true _ _ H) in H |- *. Qed.

Lemma strict_eq_Int (x y : Z) :
  strict_eq (VNumber (Int x)) (VNumber (Int y)) = true ↔ x = y.
Proof. simpl. apply bool_decide_eq_true. Qed.

Lemma spread_lookup (a b : object) (k : string) :
  spread a b !! k = match b !! k with Some v => Some v | None => a !! k end.
Proof. unfold spread. rewrite lookup_union. by destruct (b !! k), (a !! k). Qed.

(** [{ id: v, ...item }] for an [item] without [id] is [item] with [id] added. *)
Lemma spread_id_draft (v : value) (item : object) :
  item !! "id" = None → spread {["id" := v]} item = <["id" := v]> item.
Proof.
  intros H. apply map_eq. intros k. rewrite spread_lookup.
  destruct (decide (k = "id")) as [->|Hk].
  - by rewrite H, lookup_singleton_eq, lookup_insert_eq.
  - rewrite lookup_insert_ne, lookup_singleton_ne by done. by destruct (item !! k).
Qed.

(** [{ id: v, ...item }] for an [item] that has an [id] is [item] itself. *)
Lemma spread_id_overwritten (v w : value) (item : object) :
  item !! "id" = Some w → spread {["id" := v]} item = item.
Proof.
  intros H. apply map_eq. intros k. rewrite spread_lookup.
  destruct (decide (k = "id")) as [->|Hk].
  - by rewrite H.
  - rewrite lookup_singleton_ne by done. by destruct (item !! k).
Qed.

Lemma get_lookup (o : object) (k : string) (v : value) :
  o !! k = Some v → get o k = v.
Proof. unfold get. by intros ->. Qed.

Lemma get_absent (o : object) (k : string) : o !! k = None → get o k = undefined.
Proof. unfold get. by intros ->. Qed.

Lemma get_spread (a b : object) (k : string) :
  get (spread a b) k = match b !! k with Some v => v | None => get a k end.
Proof. unfold get. rewrite spread_lookup. by destruct (b !! k). Qed.

(** Every integer up to 2^53 is a double of its own. *)
Lemma nearest_double_exact (z : Z) :
  0 < z ≤ 9007199254740992 → nearest_double z = Some z.
Proof.
  intros [Hpos Hle]. unfold nearest_double.
  destruct (decide (z = 9007199254740992)) as [->|Hne]; [by vm_compute |].
  assert (Z.log2 z < 53) as Hlog by (apply Z.log2_lt_pow2; lia).
  by rewrite (proj2 (Z.ltb_lt _ _) Hlog).
Qed.

(** Number::toString on integers of each range. *)
Lemma number_to_string_small :
  number_to_string (Int 2) = "2"
  ∧ number_to_string (Int 0) = "0"
  ∧ number_to_string (Int (-12)) = "-12"
  ∧ number_to_string (Int 9007199254740992) = "9007199254740992".
Proof. by vm_compute. Qed.

Lemma number_to_string_large :
  number_to_string (Int (2 ^ 64)) = "18446744073709552000"
  ∧ number_to_string (Int (10 ^ 20)) = "100000000000000000000"
  ∧ number_to_string (Int (10 ^ 21)) = "1e+21"
  ∧ number_to_string (Int (- 10 ^ 21)) = "-1e+21"
  ∧ number_to_string (Int (2 ^ 70)) = "1.1805916207174113e+21"
  ∧ number_to_string (Int 99999999999999991611392) = "1e+23"
  ∧ number_to_string (Int (2 ^ 1024 - 2 ^ 971)) = "1.7976931348623157e+308".
Proof. by vm_compute. Qed.

(** * The initial store *)

Lemma initial_eq : initial = mkStore 5 [todo_1; todo_2; todo_3; todo_4].
Proof. reflexivity. Qed.

(** * What each handler does when it finds the id, and when it does not *)

Section Lookups.
Variable Number : string → number.

Lemma get_handler_miss (p : string) (s : Store) :
  Forall (λ t, id_is (VNumber (Number p)) t = false) (todos s) →
  get_handler Number p s =
    (mkResponse 404 (Text (not_found_message (VNumber (Number p)))), s).
Proof. intros H%find_None. unfold_handler. by rewrite H. Qed.

Lemma delete_handler_miss (p : string) (s : Store) :
  Forall (λ t, id_is (VNumber (Number p)) t = false) (todos s) →
  delete_handler Number p s =
    (mkResponse 404 (Text (not_found_message (VNumber (Number p)))), s).
Proof. intros H%findIndex_None. unfold_handler. by rewrite H. Qed.

Lemma delete_handler_hit (p : string) (s : Store) (l1 l2 : list object) (old : object) :
  todos s = l1 ++ old :: l2 →
  Forall (λ t, id_is (VNumber (Number p)) t = false) l1 →
  id_is (VNumber (Number p)) old = true →
  delete_handler Number p s =
    (mkResponse 200 (Json old), mkStore (idGenerator s) (l1 ++ l2)).
Proof.
  intros Hl Hall Hold.
  assert (findIndex (id_is (VNumber (Number p))) (todos s) = Some (length l1)) as Hidx.
  { apply findIndex_Some. by exists l1, old, l2. }
  pose proof (splice1_middle l1 l2 old) as Hsplice. unfold splice1 in Hsplice.
  injection Hsplice as Hremoved Hrest.
  unfold_handler. rewrite Hidx, Hl. simpl. by rewrite Hremoved, Hrest.
Qed.

Lemma get_handler_hit (p : string) (s : Store) (l1 l2 : list object) (old : object) :
  todos s = l1 ++ old :: l2 →
  Forall (λ t, id_is (VNumber (Number p)) t = false) l1 →
  id_is (VNumber (Number p)) old = true →
  get_handler Number p s = (mkResponse 200 (Json old), s).
Proof.
  intros Hl Hall Hold.
  assert (findIndex (id_is (VNumber (Number p))) (todos s) = Some (length l1)) as Hidx.
  { apply findIndex_Some. by exists l1, old, l2. }
  unfold_handler. rewrite find_findIndex, Hidx, Hl. simpl.
  by rewrite list_lookup_middle.
Qed.

End Lookups.

Lemma put_handler_miss (item : object) (s : Store) :
  Forall (λ t, id_is (get item "id") t = false) (todos s) →
  put_handler item s =
    (mkResponse 404 (Text (not_found_message (get item "id"))), s).
Proof. intros H%findIndex_None. unfold_handler. by rewrite H. Qed.

Lemma put_handler_hit (item : object) (s : Store) (l1 l2 : list object) (old : object) :
  todos s = l1 ++ old :: l2 →
  Forall (λ t, id_is (get item "id") t = false) l1 →
  id_is (get item "id") old = true →
  put_handler item s =
    (mkResponse 200 (Json (spread old item)),
     mkStore (idGenerator s) (l1 ++ spread old item :: l2)).
Proof.
  intros Hl Hall Hold.
  assert (findIndex (id_is (get item "id")) (todos s) = Some (length l1)) as Hidx.
  { apply findIndex_Some. by exists l1, old, l2. }
  unfold_handler. rewrite Hidx, Hl, list_lookup_middle by done. simpl.
  by rewrite insert_app_r_alt, Nat.sub_diag by lia.
Qed.

(** * Create *)

(** C1.  Create on a draft (a body without [id]): the new Todo is the draft
    with [id] set to the current value of the generator, the generator is one
    more afterwards, the new Todo is appended at the end of the collection and
    is the body of the answer, and the answer is always a 200. *)
Theorem create_draft (s : Store) (item : object) :
  item !! "id" = None →
  let newTodo := <["id" := VNumber (Int (idGenerator s))]> item in
  post_handler item s =
    (mkResponse 200 (Json newTodo),
     mkStore (idGenerator s + 1) (todos s ++ [newTodo]))
  ∧ get newTodo "id" = VNumber (Int (idGenerator s))
  ∧ ∀ k, k ≠ "id" → newTodo !! k = item !! k.
Proof.
  intros Hid newTodo. split; [| split].
  - unfold_handler. by rewrite spread_id_draft.
  - apply get_lookup, lookup_insert_eq.
  - intros k Hk. by apply lookup_insert_ne.
Qed.

Lemma create_draft_witness :
  draft_rust !! "id" = None
  ∧ post_handler draft_rust initial =
      (mkResponse 200 (Json (<["id" := VNumber (Int 5)]> draft_rust)),
       mkStore 6 (todos initial ++ [<["id" := VNumber (Int 5)]> draft_rust])).
Proof.
  split; [reflexivity |].
  exact (proj1 (create_draft initial draft_rust eq_refl)).
Defined.

(** C2.  Create on a body that has an [id] of its own: the spread puts the
    body's [id] over the generated one, so the Todo that is stored and
    returned is the body as it came, while the generator still moves on by
    one; when that [id] is the id of a Todo already in the collection, the
    collection holds the same id at two positions afterwards. *)
Theorem create_body_id_overrides (s : Store) (item t : object) (v : value) (i : nat) :
  item !! "id" = Some v →
  todos s !! i = Some t →
  strict_eq (get t "id") v = true →
  post_handler item s =
    (mkResponse 200 (Json item), mkStore (idGenerator s + 1) (todos s ++ [item]))
  ∧ returned_id (fst (post_handler item s)) = v
  ∧ ¬ unique_ids (todos (snd (post_handler item s))).
Proof.
  intros Hid Ht Heq.
  assert (post_handler item s =
    (mkResponse 200 (Json item), mkStore (idGenerator s + 1) (todos s ++ [item]))) as Hpost.
  { unfold_handler. by rewrite (spread_id_overwritten _ v). }
  rewrite Hpost. simpl. split; [done | split].
  - by apply get_lookup.
  - intros Huniq.
    assert (i = length (todos s)) as ->.
    { apply (Huniq i (length (todos s)) t item).
      - by apply lookup_app_l_Some.
      - by rewrite lookup_app_r, Nat.sub_diag.
      - by rewrite (get_lookup item "id" v). }
    apply lookup_lt_Some in Ht. lia.
Qed.

Lemma create_body_id_overrides_witness :
  returned_id (fst (post_handler body_id_1 initial)) = VNumber (Int 1)
  ∧ idGenerator initial = 5
  ∧ idGenerator (snd (post_handler body_id_1 initial)) = 6
  ∧ ¬ unique_ids (todos (snd (post_handler body_id_1 initial))).
Proof.
  destruct (create_body_id_overrides initial body_id_1 todo_1 (VNumber (Int 1)) 0
              eq_refl eq_refl eq_refl) as (Hpost & Hret & Hdup).
  split; [exact Hret |]. split; [reflexivity |]. split; [reflexivity | exact Hdup].
Defined.

(** * Update *)

(** C3.  Update: when some Todo of the collection has the id of the payload,
    the first such Todo is replaced, at its position, by the payload merged
    over it (a property of the payload wins, a property the payload does not
    have keeps its old value), the rest of the collection and the generator
    are as before, and the merged Todo is returned with a 200; when no Todo
    has that id the answer is the 404 and the store is unchanged.  One of the
    two cases always applies. *)
Theorem update_spec (s : Store) (item : object) :
  ((∃ t, t ∈ todos s ∧ id_is (get item "id") t = true) →
   ∃ l1 old l2,
     todos s = l1 ++ old :: l2
     ∧ Forall (λ t, id_is (get item "id") t = false) l1
     ∧ id_is (get item "id") old = true
     ∧ put_handler item s =
         (mkResponse 200 (Json (spread old item)),
          mkStore (idGenerator s) (l1 ++ spread old item :: l2))
     ∧ ∀ k, spread old item !! k =
            match item !! k with Some v => Some v | None => old !! k end)
  ∧ ((∀ t, t ∈ todos s → id_is (get item "id") t = false) →
     put_handler item s =
       (mkResponse 404 (Text (not_found_message (get item "id"))), s))
  ∧ ((∃ t, t ∈ todos s ∧ id_is (get item "id") t = true)
     ∨ (∀ t, t ∈ todos s → id_is (get item "id") t = false)).
Proof.
  split; [| split].
  - intros (t & Ht & Hp).
    destruct (findIndex_cases (id_is (get item "id")) (todos s))
      as [(l1 & old & l2 & Hl & Hall & Hold)|Hnone].
    + exists l1, old, l2. repeat split; try done.
      * by apply put_handler_hit.
      * intros k. apply spread_lookup.
    + rewrite Forall_forall in Hnone. specialize (Hnone t Ht). congruence.
  - intros Hnone. apply put_handler_miss. by apply Forall_forall.
  - apply hit_or_miss.
Qed.

Lemma update_spec_witness :
  (∃ l1 old l2,
     todos initial = l1 ++ old :: l2
     ∧ Forall (λ t, id_is (get body_id_1 "id") t = false) l1
     ∧ id_is (get body_id_1 "id") old = true
     ∧ put_handler body_id_1 initial =
         (mkResponse 200 (Json (spread old body_id_1)),
          mkStore (idGenerator initial) (l1 ++ spread old body_id_1 :: l2))
     ∧ ∀ k, spread old body_id_1 !! k =
            match body_id_1 !! k with Some v => Some v | None => old !! k end)
  ∧ put_handler body_id_7 initial =
      (mkResponse 404 (Text "Todo entity not found by id: 7"), initial).
Proof.
  split.
  - apply (proj1 (update_spec initial body_id_1)).
    exists todo_1. split; [apply list_elem_of_here | reflexivity].
  - apply (proj1 (proj2 (update_spec initial body_id_7))).
    intros t Ht. rewrite initial_eq in Ht. simpl in Ht.
    repeat (apply elem_of_cons in Ht as [->|Ht]; [reflexivity |]).
    by apply elem_of_nil in Ht.
Defined.

(** * Delete, and the answers to an id that is not there *)

(** C4.  Delete: when some Todo of the collection has the requested id, the
    first such Todo is taken out of the collection (everything else stays, in
    order) and is returned with a 200; when none has it, the answer is the 404
    and the store is unchanged.  One of the two cases always applies: there
    is no third outcome. *)
Theorem delete_spec (Number : string → number) (s : Store) (p : string) :
  let id := VNumber (Number p) in
  ((∃ t, t ∈ todos s ∧ id_is id t = true) →
   ∃ l1 old l2,
     todos s = l1 ++ old :: l2
     ∧ Forall (λ t, id_is id t = false) l1
     ∧ id_is id old = true
     ∧ delete_handler Number p s =
         (mkResponse 200 (Json old), mkStore (idGenerator s) (l1 ++ l2)))
  ∧ ((∀ t, t ∈ todos s → id_is id t = false) →
     delete_handler Number p s = (mkResponse 404 (Text (not_found_message id)), s))
  ∧ ((∃ t, t ∈ todos s ∧ id_is id t = true) ∨ (∀ t, t ∈ todos s → id_is id t = false)).
Proof.
  intros id. split; [| split].
  - intros (t & Ht & Hp).
    destruct (findIndex_cases (id_is id) (todos s))
      as [(l1 & old & l2 & Hl & Hall & Hold)|Hnone].
    + exists l1, old, l2. repeat split; try done.
      by apply delete_handler_hit.
    + rewrite Forall_forall in Hnone. specialize (Hnone t Ht). congruence.
  - intros Hnone. apply delete_handler_miss. by apply Forall_forall.
  - apply hit_or_miss.
Qed.

Lemma delete_spec_witness :
  (∃ l1 old l2,
     todos initial = l1 ++ old :: l2
     ∧ Forall (λ t, id_is (VNumber (Number_digits "2")) t = false) l1
     ∧ id_is (VNumber (Number_digits "2")) old = true
     ∧ delete_handler Number_digits "2" initial =
         (mkResponse 200 (Json old), mkStore (idGenerator initial) (l1 ++ l2)))
  ∧ delete_handler Number_digits "9" initial =
      (mkResponse 404 (Text "Todo entity not found by id: 9"), initial).
Proof.
  split.
  - apply (proj1 (delete_spec Number_digits initial "2")).
    exists todo_2. split; [| reflexivity].
    rewrite initial_eq. apply list_elem_of_further, list_elem_of_here.
  - apply (proj1 (proj2 (delete_spec Number_digits initial "9"))).
    intros t Ht. rewrite initial_eq in Ht. simpl in Ht.
    repeat (apply elem_of_cons in Ht as [->|Ht]; [reflexivity |]).
    by apply elem_of_nil in Ht.
Defined.


Lemma initial_has_no (v : value) :
  (∀ z, v = VNumber (Int z) → ¬ (1 ≤ z ≤ 4)) →
  ∀ t, t ∈ todos initial → id_is v t = false.
Proof.
  intros Hv t Ht. rewrite initial_eq in Ht. simpl in Ht.
  unfold id_is.
  repeat (apply elem_of_cons in Ht as [->|Ht];
    [ destruct (strict_eq _ v) eqn:E; [| done];
      apply strict_eq_true in E; exfalso; eapply Hv; [symmetry; exact E | lia] |]).
  by apply elem_of_nil in Ht.
Qed.


(** The not-found text for an id that is printed in exponent form. *)
Lemma not_found_large_id :
  fst (put_handler {["id" := VNumber (Int (10 ^ 21)); "title" := VString "x"]} initial) =
    mkResponse 404 (Text "Todo entity not found by id: 1e+21").
Proof. by vm_compute. Qed.

(** C9.  A path parameter that [Number] turns into NaN: the get and the
    delete handler answer 404 with [Todo entity not found by id: NaN] and
    leave the store unchanged, whatever the store holds, since [===] with NaN
    is false. *)
Theorem nan_param_not_found (Number : string → number) (p : string) (s : Store) :
  Number p = NaN →
  get_handler Number p s =
    (mkResponse 404 (Text "Todo entity not found by id: NaN"), s)
  ∧ delete_handler Number p s =
    (mkResponse 404 (Text "Todo entity not found by id: NaN"), s).
Proof.
  intros HNaN.
  assert (Forall (λ t, id_is (VNumber (Number p)) t = false) (todos s)) as Hall.
  { apply Forall_forall. intros t _. unfold id_is. rewrite HNaN. apply strict_eq_NaN_r. }
  rewrite get_handler_miss, delete_handler_miss by done.
  by rewrite HNaN.
Qed.

Lemma nan_param_not_found_witness :
  Number_digits "abc" = NaN
  ∧ get_handler Number_digits "abc" initial =
      (mkResponse 404 (Text "Todo entity not found by id: NaN"), initial)
  ∧ delete_handler Number_digits "abc" initial =
      (mkResponse 404 (Text "Todo entity not found by id: NaN"), initial).
Proof.
  split; [reflexivity |].
  exact (nan_param_not_found Number_digits "abc" initial eq_refl).
Defined.

(** C10.  Update with a body that has no [id], on a store in which every
    Todo has a number as its [id]: the answer is 404 with
    [Todo entity not found by id: undefined] and the store is unchanged. *)
Theorem update_without_id (s : Store) (item : object) :
  item !! "id" = None →
  Forall (λ t : object, ∃ n, t !! "id" = Some (VNumber n)) (todos s) →
  put_handler item s =
    (mkResponse 404 (Text "Todo entity not found by id: undefined"), s).
Proof.
  intros Hid Hnum.
  rewrite put_handler_miss.
  - by rewrite (get_absent item "id").
  - rewrite (get_absent item "id") by done.
    eapply Forall_impl; [exact Hnum |].
    intros t [n Hn]. unfold id_is. by rewrite (get_lookup t "id" (VNumber n)).
Qed.

Lemma update_without_id_witness :
  draft_rust !! "id" = None
  ∧ Forall (λ t : object, ∃ n, t !! "id" = Some (VNumber n)) (todos initial)
  ∧ put_handler draft_rust initial =
      (mkResponse 404 (Text "Todo entity not found by id: undefined"), initial).
Proof.
  assert (Forall (λ t : object, ∃ n, t !! "id" = Some (VNumber n)) (todos initial)) as Hnum.
  { rewrite initial_eq. simpl. repeat constructor; eexists; reflexivity. }
  split; [reflexivity |]. split; [exact Hnum |].
  exact (update_without_id initial draft_rust eq_refl Hnum).
Defined.

(** * Runs of requests *)

Lemma serve_cons (Number : string → number) (r : Request) (rs : list Request) (s : Store) :
  serve Number (r :: rs) s =
    (fst (handle Number r s) :: fst (serve Number rs (snd (handle Number r s))),
     snd (serve Number rs (snd (handle Number r s)))).
Proof.
  simpl. unfold mbind, mret, M_bind, M_ret.
  destruct (handle Number r s) as [a s1]; simpl.
  by destruct (serve Number rs s1) as [answers s2].
Qed.

(** Only a create moves the generator, and it moves it up by one. *)
Lemma handle_generator (Number : string → number) (r : Request) (s : Store) :
  idGenerator (snd (handle Number r s)) =
    match r with
    | POST_todos _ => idGenerator s + 1
    | _ => idGenerator s
    end.
Proof.
  destruct r as [|item|p|item|p]; simpl.
  - done.
  - done.
  - unfold_handler. by destruct (find _ _).
  - destruct (findIndex_cases (id_is (get item "id")) (todos s))
      as [(l1 & old & l2 & Hl & Hall & Hold)|Hnone].
    + by rewrite (put_handler_hit item s l1 l2 old).
    + by rewrite put_handler_miss.
  - destruct (findIndex_cases (id_is (VNumber (Number p))) (todos s))
      as [(l1 & old & l2 & Hl & Hall & Hold)|Hnone].
    + by rewrite (delete_handler_hit Number p s l1 l2 old).
    + by rewrite delete_handler_miss.
Qed.

Lemma post_handler_draft_id (item : object) (s : Store) :
  item !! "id" = None →
  returned_id (fst (post_handler item s)) = VNumber (Int (idGenerator s)).
Proof.
  intros Hid. unfold_handler. unfold returned_id; simpl.
  rewrite get_spread, Hid. apply get_lookup, lookup_singleton_eq.
Qed.

(** From any store, the ids that a run of requests with draft creates hands
    out go up strictly, starting no lower than the generator. *)
Lemma created_ids_from (Number : string → number) (rs : list Request) (s : Store) :
  Forall is_draft_request rs →
  ∃ zs : list Z,
    created_ids rs (fst (serve Number rs s)) = (λ z, VNumber (Int z)) <$> zs
    ∧ StronglySorted Z.lt zs
    ∧ Forall (λ z, idGenerator s ≤ z) zs.
Proof.
  revert s. induction rs as [|r rs IH]; intros s Hdrafts.
  - exists []. repeat split; constructor.
  - inversion Hdrafts as [|? ? Hr Hrs]; subst.
    destruct (IH (snd (handle Number r s)) Hrs) as (zs & Hzs & Hsorted & Hlow).
    rewrite handle_generator in Hlow.
    rewrite serve_cons. simpl fst.
    destruct r as [|item|p|item|p]; simpl created_ids;
      try (exists zs; repeat split; done).
    exists (idGenerator s :: zs). split; [| split].
    + rewrite fmap_cons, <- Hzs. f_equal. by apply post_handler_draft_id.
    + constructor; [done |]. eapply Forall_impl; [exact Hlow |]. simpl. lia.
    + constructor; [lia |]. eapply Forall_impl; [exact Hlow |]. simpl. lia.
Qed.

(** C5.  Along any run of the service from its seeded store in which every
    create carries a draft (gets, updates and deletes may come in between at
    will), the ids of the seeds followed by the ids the creates return form a
    strictly increasing sequence: each returned id is greater than every id
    assigned before it, so none is ever handed out twice, deletions or not. *)
Theorem created_ids_increase (Number : string → number) (rs : list Request) :
  Forall is_draft_request rs →
  ∃ seeds zs : list Z,
    (λ t, get t "id") <$> todos initial = (λ z, VNumber (Int z)) <$> seeds
    ∧ created_ids rs (fst (serve Number rs initial)) = (λ z, VNumber (Int z)) <$> zs
    ∧ StronglySorted Z.lt (seeds ++ zs)
    ∧ NoDup (seeds ++ zs).
Proof.
  intros Hdrafts.
  destruct (created_ids_from Number rs initial Hdrafts) as (zs & Hzs & Hsorted & Hlow).
  assert (StronglySorted Z.lt ([1; 2; 3; 4] ++ zs)) as Hall.
  { change (idGenerator initial) with 5 in Hlow.
    assert (Forall (λ z, 4 < z) zs) as H4 by (eapply Forall_impl; [exact Hlow | simpl; lia]).
    simpl. repeat constructor; try lia; try done;
      eapply Forall_impl; try exact H4; simpl; lia. }
  exists [1; 2; 3; 4], zs. repeat split; try done.
  clear -Hall. induction Hall as [|z l _ IH Hz]; constructor; [| done].
  intros Hin. rewrite Forall_forall in Hz. specialize (Hz z Hin). lia.
Qed.

Lemma created_ids_increase_witness :
  Forall is_draft_request [POST_todos draft_rust; DELETE_todos_id "5"; POST_todos draft_go]
  ∧ created_ids [POST_todos draft_rust; DELETE_todos_id "5"; POST_todos draft_go]
      (fst (serve Number_digits
              [POST_todos draft_rust; DELETE_todos_id "5"; POST_todos draft_go] initial)) =
      [VNumber (Int 5); VNumber (Int 6)]
  ∧ ∃ seeds zs : list Z,
      (λ t, get t "id") <$> todos initial = (λ z, VNumber (Int z)) <$> seeds
      ∧ created_ids [POST_todos draft_rust; DELETE_todos_id "5"; POST_todos draft_go]
          (fst (serve Number_digits
                  [POST_todos draft_rust; DELETE_todos_id "5"; POST_todos draft_go] initial)) =
          (λ z, VNumber (Int z)) <$> zs
      ∧ StronglySorted Z.lt (seeds ++ zs)
      ∧ NoDup (seeds ++ zs).
Proof.
  assert (Forall is_draft_request
            [POST_todos draft_rust; DELETE_todos_id "5"; POST_todos draft_go]) as Hdrafts.
  { repeat constructor. }
  split; [exact Hdrafts |]. split; [reflexivity |].
  exact (created_ids_increase Number_digits _ Hdrafts).
Defined.

(** * Delete, then get *)

(** Where the ids of the collection are pairwise different, a delete that
    succeeded leaves no Todo with that id behind. *)
Lemma delete_then_get_unique (Number : string → number) (p : string) (s : Store) :
  unique_ids (todos s) →
  status (fst (delete_handler Number p s)) = 200 →
  get_handler Number p (snd (delete_handler Number p s)) =
    (mkResponse 404 (Text (not_found_message (VNumber (Number p)))),
     snd (delete_handler Number p s)).
Proof.
  intros Huniq Hok.
  destruct (findIndex_cases (id_is (VNumber (Number p))) (todos s))
    as [(l1 & old & l2 & Hl & Hall & Hold)|Hnone].
  - rewrite (delete_handler_hit Number p s l1 l2 old) by done. simpl.
    apply get_handler_miss. simpl. apply Forall_app. split; [done |].
    apply Forall_forall. intros t Ht.
    destruct (id_is (VNumber (Number p)) t) eqn:Hid; [| done].
    apply list_elem_of_lookup in Ht as [k Hk].
    unfold id_is in Hold, Hid.
    assert (length l1 = S (length l1 + k)) as Hpos; [| lia].
    apply (Huniq (length l1) (S (length l1 + k)) old t).
    + by rewrite Hl, list_lookup_middle.
    + rewrite Hl, lookup_app_r by lia.
      replace (S (length l1 + k) - length l1)%nat with (S k) by lia. done.
    + rewrite (strict_eq_true _ _ Hid).
      pose proof (strict_eq_true _ _ Hold) as Heq. by rewrite Heq in Hold |- *.
  - rewrite delete_handler_miss in Hok by done. done.
Qed.

Lemma well_numbered_unique (s : Store) : well_numbered s → unique_ids (todos s).
Proof.
  intros (zs & Hzs & Hnodup & _) i j a b Ha Hb Heq.
  assert (∀ k t, todos s !! k = Some t → ∃ z, zs !! k = Some z ∧ get t "id" = VNumber (Int z))
    as Hat.
  { intros k t Hk.
    assert (((λ z, VNumber (Int z)) <$> zs) !! k = Some (get t "id")) as Hk'.
    { by rewrite <- Hzs, list_lookup_fmap, Hk. }
    rewrite list_lookup_fmap in Hk'.
    destruct (zs !! k) as [z|]; simplify_eq/=. by exists z. }
  destruct (Hat i a Ha) as (x & Hx & Hax), (Hat j b Hb) as (y & Hy & Hby).
  rewrite Hax, Hby in Heq. apply strict_eq_Int in Heq as ->.
  by eapply NoDup_lookup.
Qed.

Lemma well_numbered_initial : well_numbered initial.
Proof.
  exists [1; 2; 3; 4]. split; [reflexivity |]. split.
  - compute_done.
  - change (idGenerator initial) with 5. repeat constructor; lia.
Qed.

Lemma handle_well_numbered (Number : string → number) (r : Request) (s : Store) :
  is_draft_request r → well_numbered s → well_numbered (snd (handle Number r s)).
Proof.
  intros Hr (zs & Hzs & Hnodup & Hlt).
  destruct r as [|item|p|item|p]; simpl in *.
  - by exists zs.
  - exists (zs ++ [idGenerator s]). unfold_handler. split; [| split].
    + rewrite !fmap_app, Hzs. simpl. do 2 f_equal.
      rewrite get_spread, Hr. apply get_lookup, lookup_singleton_eq.
    + apply NoDup_app. split; [done |]. split; [| apply NoDup_singleton].
      intros z Hz ->%list_elem_of_singleton.
      rewrite Forall_forall in Hlt. specialize (Hlt _ Hz). lia.
    + apply Forall_app. split.
      * eapply Forall_impl; [exact Hlt | simpl; lia].
      * repeat constructor. lia.
  - exists zs. unfold_handler. by destruct (find _ _).
  - destruct (findIndex_cases (id_is (get item "id")) (todos s))
      as [(l1 & old & l2 & Hl & Hall & Hold)|Hnone].
    + rewrite (put_handler_hit item s l1 l2 old) by done. simpl.
      exists zs. split; [| done].
      rewrite <- Hzs, Hl. simpl. rewrite !fmap_app, !fmap_cons. do 2 f_equal.
      rewrite get_spread. unfold id_is in Hold. apply strict_eq_true in Hold.
      rewrite Hold. unfold get. by destruct (item !! "id").
    + rewrite put_handler_miss by done. by exists zs.
  - destruct (findIndex_cases (id_is (VNumber (Number p))) (todos s))
      as [(l1 & old & l2 & Hl & Hall & Hold)|Hnone].
    + rewrite (delete_handler_hit Number p s l1 l2 old) by done. simpl.
      rewrite Hl, fmap_app, fmap_cons in Hzs.
      symmetry in Hzs. apply fmap_app_inv in Hzs as (z1 & z2' & H1 & H2 & ->).
      symmetry in H2. apply fmap_cons_inv in H2 as (z & z2 & _ & H2 & ->).
      exists (z1 ++ z2). split; [| split].
      * simpl. by rewrite !fmap_app, H1, H2.
      * apply NoDup_app in Hnodup as (Hn1 & Hdisj & Hn2).
        apply NoDup_cons in Hn2 as [_ Hn2].
        apply NoDup_app. repeat split; [done | | done].
        intros x Hx1 Hx2. apply (Hdisj x Hx1). by right.
      * apply Forall_app in Hlt as [Hlt1 Hlt2]. apply Forall_cons in Hlt2 as [_ Hlt2].
        by apply Forall_app.
    + rewrite delete_handler_miss by done. by exists zs.
Qed.

Lemma serve_well_numbered (Number : string → number) (rs : list Request) (s : Store) :
  Forall is_draft_request rs → well_numbered s → well_numbered (snd (serve Number rs s)).
Proof.
  revert s. induction rs as [|r rs IH]; intros s Hrs Hs; [done |].
  inversion Hrs; subst. rewrite serve_cons. simpl.
  apply IH; [done |]. by apply handle_well_numbered.
Qed.

(** On every store that the service reaches when all creates carry drafts, a
    successful delete followed by a get of the same path is answered with the
    404. *)
Lemma delete_then_get_drafts (Number : string → number) (rs : list Request) (p : string) :
  Forall is_draft_request rs →
  let s := snd (serve Number rs initial) in
  status (fst (delete_handler Number p s)) = 200 →
  fst (get_handler Number p (snd (delete_handler Number p s))) =
    mkResponse 404 (Text (not_found_message (VNumber (Number p)))).
Proof.
  intros Hrs s Hok.
  rewrite delete_then_get_unique; [done | | done].
  apply well_numbered_unique, serve_well_numbered; [done | apply well_numbered_initial].
Qed.

(** C7.  The run: create with the body [{id: 1, title: "Learn TS"}], then
    delete /api/todos/1, then get /api/todos/1.  The store after the create
    is reachable, the delete succeeds and returns the seeded Todo 1, and the
    get that follows is answered with a 200 and the created Todo, not with
    the 404. *)
Theorem delete_then_get_duplicate :
  reachable Number_digits (snd (serve Number_digits [POST_todos body_id_1] initial))
  ∧ get body_id_1 "id" = VNumber (Int 1)
  ∧ fst (delete_handler Number_digits "1"
           (snd (serve Number_digits [POST_todos body_id_1] initial))) =
      mkResponse 200 (Json todo_1)
  ∧ fst (get_handler Number_digits "1"
           (snd (delete_handler Number_digits "1"
                   (snd (serve Number_digits [POST_todos body_id_1] initial))))) =
      mkResponse 200 (Json body_id_1).
Proof.
  split; [by exists [POST_todos body_id_1] |]. by repeat split.
Qed.

(** * The seeded scenario *)

(** C8.  The seeded store holds exactly four Todos, with the ids 1 to 4.
    From it, DELETE /api/todos/2 is answered 200 with
    [{id: 2, title: "Learn Angular"}], the GET /api/todos/2 that follows is
    answered 404 with [Todo entity not found by id: 2], and the GET
    /api/todos after that is answered 200 with the three Todos that are left,
    of ids 1, 3 and 4 in this order. *)
Theorem scenario_delete_2 (Number : string → number) :
  Number "2" = Int 2 →
  todos initial = [todo_1; todo_2; todo_3; todo_4]
  ∧ (λ t, get t "id") <$> todos initial =
      [VNumber (Int 1); VNumber (Int 2); VNumber (Int 3); VNumber (Int 4)]
  ∧ todo_2 = {["id" := VNumber (Int 2); "title" := VString "Learn Angular"]}
  ∧ fst (serve Number [DELETE_todos_id "2"; GET_todos_id "2"; GET_todos] initial) =
      [ mkResponse 200 (Json todo_2);
        mkResponse 404 (Text "Todo entity not found by id: 2");
        mkResponse 200 (JsonArray [todo_1; todo_3; todo_4]) ]
  ∧ (λ t, get t "id") <$> [todo_1; todo_3; todo_4] =
      [VNumber (Int 1); VNumber (Int 3); VNumber (Int 4)].
Proof.
  intros H2. repeat split.
  unfold serve, handle, delete_handler, get_handler, list_handler.
  rewrite !H2. reflexivity.
Qed.

Lemma scenario_delete_2_witness :
  Number_digits "2" = Int 2
  ∧ fst (serve Number_digits [DELETE_todos_id "2"; GET_todos_id "2"; GET_todos] initial) =
      [ mkResponse 200 (Json todo_2);
        mkResponse 404 (Text "Todo entity not found by id: 2");
        mkResponse 200 (JsonArray [todo_1; todo_3; todo_4]) ].
Proof.
  split; [reflexivity |].
  exact (proj1 (proj2 (proj2 (proj2 (scenario_delete_2 Number_digits eq_refl))))).
Defined.

(** * Further properties of the handlers *)

Lemma post_handler_draft (item : object) (s : Store) :
  item !! "id" = None →
  post_handler item s =
    (mkResponse 200 (Json (<["id" := VNumber (Int (idGenerator s))]> item)),
     mkStore (idGenerator s + 1)
       (todos s ++ [<["id" := VNumber (Int (idGenerator s))]> item])).
Proof. intros Hid. unfold_handler. by rewrite spread_id_draft. Qed.

(** The merged Todo of an update still has the id that was looked up. *)
Lemma merged_keeps_id (item old : object) :
  id_is (get item "id") old = true →
  get (spread old item) "id" = get old "id"
  ∧ id_is (get item "id") (spread old item) = true.
Proof.
  unfold id_is. intros Hold.
  assert (get (spread old item) "id" = get old "id") as Hsame.
  { rewrite get_spread. apply strict_eq_true in Hold. rewrite Hold.
    unfold get. by destruct (item !! "id"). }
  split; [done |]. by rewrite Hsame.
Qed.

(** X1.  Create, whatever the body: the answer is a 200 carrying the new
    Todo, the generator goes up by one, the Todos already in the collection
    stay as they are and the new one comes last; the new Todo has every
    property of the body, and its [id] is the body's [id] when the body has
    one and the value of the generator otherwise. *)
Theorem create_any_body (s : Store) (item : object) :
  ∃ t : object,
    post_handler item s =
      (mkResponse 200 (Json t), mkStore (idGenerator s + 1) (todos s ++ [t]))
    ∧ get t "id" =
        match item !! "id" with
        | Some v => v
        | None => VNumber (Int (idGenerator s))
        end
    ∧ ∀ k, k ≠ "id" → t !! k = item !! k.
Proof.
  exists (spread {["id" := VNumber (Int (idGenerator s))]} item).
  split; [by unfold_handler | split].
  - rewrite get_spread. destruct (item !! "id"); [done |].
    apply get_lookup, lookup_singleton_eq.
  - intros k Hk. rewrite spread_lookup, lookup_singleton_ne by done.
    by destruct (item !! k).
Qed.

(** X2.  Create, then get: when the body is a draft and no Todo of the
    collection has the value of the generator as its id, a get of the id that
    the create returned is answered with a 200 and the very Todo the create
    returned, and changes nothing. *)
Theorem create_then_get (Number : string → number) (s : Store) (item : object) (p : string) :
  item !! "id" = None →
  Number p = Int (idGenerator s) →
  (∀ t, t ∈ todos s → id_is (VNumber (Int (idGenerator s))) t = false) →
  returned_id (fst (post_handler item s)) = VNumber (Number p)
  ∧ get_handler Number p (snd (post_handler item s)) =
      (fst (post_handler item s), snd (post_handler item s)).
Proof.
  intros Hid Hp Hfresh. rewrite (post_handler_draft item s Hid). simpl.
  split.
  - unfold returned_id. simpl. rewrite Hp. apply get_lookup, lookup_insert_eq.
  - apply (get_handler_hit Number p _ (todos s) []); simpl; rewrite ?Hp.
    + done.
    + by apply Forall_forall.
    + unfold id_is. rewrite (get_lookup _ "id" _ (lookup_insert_eq _ _ _)).
      by apply strict_eq_Int.
Qed.

Lemma create_then_get_witness :
  draft_rust !! "id" = None
  ∧ Number_digits "5" = Int (idGenerator initial)
  ∧ get_handler Number_digits "5" (snd (post_handler draft_rust initial)) =
      (mkResponse 200 (Json (<["id" := VNumber (Int 5)]> draft_rust)),
       snd (post_handler draft_rust initial)).
Proof.
  split; [reflexivity |]. split; [reflexivity |].
  refine (proj2 (create_then_get Number_digits initial draft_rust "5" eq_refl eq_refl _)).
  apply initial_has_no. intros z [= <-]. lia.
Defined.

(** X3.  Create, then delete: under the same conditions, a delete of the id
    that the create returned is answered with a 200 and the created Todo, and
    puts the collection back to what it was before the create; the generator
    keeps its new value. *)
Theorem create_then_delete (Number : string → number) (s : Store) (item : object) (p : string) :
  item !! "id" = None →
  Number p = Int (idGenerator s) →
  (∀ t, t ∈ todos s → id_is (VNumber (Int (idGenerator s))) t = false) →
  delete_handler Number p (snd (post_handler item s)) =
    (fst (post_handler item s), mkStore (idGenerator s + 1) (todos s)).
Proof.
  intros Hid Hp Hfresh. rewrite (post_handler_draft item s Hid). simpl.
  rewrite (delete_handler_hit Number p _ (todos s) []
             (<["id" := VNumber (Int (idGenerator s))]> item)); simpl; rewrite ?Hp.
  - by rewrite app_nil_r.
  - done.
  - by apply Forall_forall.
  - unfold id_is. rewrite (get_lookup _ "id" _ (lookup_insert_eq _ _ _)).
    by apply strict_eq_Int.
Qed.

Lemma create_then_delete_witness :
  draft_rust !! "id" = None
  ∧ Number_digits "5" = Int (idGenerator initial)
  ∧ delete_handler Number_digits "5" (snd (post_handler draft_rust initial)) =
      (mkResponse 200 (Json (<["id" := VNumber (Int 5)]> draft_rust)),
       mkStore 6 (todos initial)).
Proof.
  split; [reflexivity |]. split; [reflexivity |].
  refine (create_then_delete Number_digits initial draft_rust "5" eq_refl eq_refl _).
  apply initial_has_no. intros z [= <-]. lia.
Defined.

(** The ids of the collection after an update. *)
Lemma update_ids_helper (s : Store) (item : object) :
  (λ t, get t "id") <$> todos (snd (put_handler item s)) =
    (λ t, get t "id") <$> todos s.
Proof.
  destruct (findIndex_cases (id_is (get item "id")) (todos s))
    as [(l1 & old & l2 & Hl & Hall & Hold)|Hnone].
  - rewrite (put_handler_hit item s l1 l2 old) by done. simpl.
    rewrite Hl, !fmap_app, !fmap_cons.
    by rewrite (proj1 (merged_keeps_id item old Hold)).
  - by rewrite put_handler_miss.
Qed.

(** X4.  Update, whatever the body and the store: the ids of the collection,
    position by position, are the same after as before, the collection has
    the same length, the generator keeps its value, and the answer is a 200
    or a 404.  An update never adds a Todo, never removes one and never
    changes an id. *)
Theorem update_keeps_ids (s : Store) (item : object) :
  (λ t, get t "id") <$> todos (snd (put_handler item s)) =
    (λ t, get t "id") <$> todos s
  ∧ length (todos (snd (put_handler item s))) = length (todos s)
  ∧ idGenerator (snd (put_handler item s)) = idGenerator s
  ∧ (status (fst (put_handler item s)) = 200 ∨ status (fst (put_handler item s)) = 404).
Proof.
  destruct (findIndex_cases (id_is (get item "id")) (todos s))
    as [(l1 & old & l2 & Hl & Hall & Hold)|Hnone].
  - rewrite (put_handler_hit item s l1 l2 old) by done. simpl.
    rewrite Hl, !fmap_app, !fmap_cons, !length_app. simpl.
    rewrite (proj1 (merged_keeps_id item old Hold)). auto.
  - rewrite put_handler_miss by done. simpl. auto.
Qed.

(** X5.  Update is idempotent: sending the same body a second time gives the
    same answer as the first time and leaves the store as the first update
    left it. *)
Theorem update_idempotent (s : Store) (item : object) :
  put_handler item (snd (put_handler item s)) =
    (fst (put_handler item s), snd (put_handler item s)).
Proof.
  destruct (findIndex_cases (id_is (get item "id")) (todos s))
    as [(l1 & old & l2 & Hl & Hall & Hold)|Hnone].
  - rewrite (put_handler_hit item s l1 l2 old) by done. simpl.
    rewrite (put_handler_hit item _ l1 l2 (spread old item)); simpl.
    + assert (spread (spread old item) item = spread old item) as ->; [| done].
      apply map_eq. intros k. rewrite !spread_lookup. by destruct (item !! k).
    + done.
    + done.
    + by apply merged_keeps_id.
  - rewrite (put_handler_miss item s) by done. simpl. by apply put_handler_miss.
Qed.

(** X6.  Update, then get: after an update that found its Todo, a get of the
    same id (a path that [Number] turns into the number the body has as its
    [id]) is answered with a 200 and the merged Todo that the update
    returned. *)
Theorem update_then_get (Number : string → number) (s : Store) (item : object) (p : string) :
  get item "id" = VNumber (Number p) →
  status (fst (put_handler item s)) = 200 →
  get_handler Number p (snd (put_handler item s)) =
    (fst (put_handler item s), snd (put_handler item s)).
Proof.
  intros Hid Hok.
  destruct (findIndex_cases (id_is (get item "id")) (todos s))
    as [(l1 & old & l2 & Hl & Hall & Hold)|Hnone].
  - rewrite (put_handler_hit item s l1 l2 old) by done. simpl.
    apply (get_handler_hit Number p _ l1 l2); simpl; rewrite <- ?Hid.
    + done.
    + done.
    + by apply merged_keeps_id.
  - rewrite put_handler_miss in Hok by done. done.
Qed.

Lemma update_then_get_witness :
  get body_id_1 "id" = VNumber (Number_digits "1")
  ∧ status (fst (put_handler body_id_1 initial)) = 200
  ∧ get_handler Number_digits "1" (snd (put_handler body_id_1 initial)) =
      (mkResponse 200 (Json body_id_1), snd (put_handler body_id_1 initial)).
Proof.
  split; [reflexivity |]. split; [reflexivity |].
  exact (update_then_get Number_digits initial body_id_1 "1" eq_refl eq_refl).
Defined.

(** X7.  Where the ids of the collection are pairwise different, a delete
    that succeeded is final: a get and a second delete of the same path are
    both answered with the 404, and neither changes the store. *)
Theorem delete_is_final (Number : string → number) (s : Store) (p : string) :
  unique_ids (todos s) →
  status (fst (delete_handler Number p s)) = 200 →
  get_handler Number p (snd (delete_handler Number p s)) =
    (mkResponse 404 (Text (not_found_message (VNumber (Number p)))),
     snd (delete_handler Number p s))
  ∧ delete_handler Number p (snd (delete_handler Number p s)) =
    (mkResponse 404 (Text (not_found_message (VNumber (Number p)))),
     snd (delete_handler Number p s)).
Proof.
  intros Huniq Hok.
  pose proof (delete_then_get_unique Number p s Huniq Hok) as Hget.
  split; [done |].
  destruct (findIndex_cases (id_is (VNumber (Number p)))
              (todos (snd (delete_handler Number p s))))
    as [(l1 & old & l2 & Hl & Hall & Hold)|Hnone].
  - rewrite (get_handler_hit Number p _ l1 l2 old) in Hget by done. done.
  - by apply delete_handler_miss.
Qed.

Lemma delete_is_final_witness :
  unique_ids (todos initial)
  ∧ status (fst (delete_handler Number_digits "3" initial)) = 200
  ∧ delete_handler Number_digits "3" (snd (delete_handler Number_digits "3" initial)) =
      (mkResponse 404 (Text "Todo entity not found by id: 3"),
       snd (delete_handler Number_digits "3" initial)).
Proof.
  assert (unique_ids (todos initial)) as Huniq.
  { apply well_numbered_unique, well_numbered_initial. }
  split; [exact Huniq |]. split; [reflexivity |].
  exact (proj2 (delete_is_final Number_digits initial "3" Huniq eq_refl)).
Defined.

(** X11.  The id lookup of update does not convert types: on a store in
    which every Todo has a number as its [id], a body whose [id] is anything
    but a number (a string of digits, a boolean, null, or no [id] at all) is
    answered with the 404 and the store is unchanged. *)
Theorem update_id_not_a_number (s : Store) (item : object) :
  (∀ n, get item "id" ≠ VNumber n) →
  Forall (λ t : object, ∃ n, t !! "id" = Some (VNumber n)) (todos s) →
  put_handler item s =
    (mkResponse 404 (Text ("Todo entity not found by id: " +:+ ToString (get item "id"))), s).
Proof.
  intros Hnot Hnum. apply put_handler_miss.
  eapply Forall_impl; [exact Hnum |].
  intros t [n Hn]. unfold id_is. rewrite (get_lookup t "id" (VNumber n) Hn).
  destruct (get item "id") as [| | | m |]; try done. by destruct (Hnot m).
Qed.

Lemma update_id_not_a_number_witness :
  (∀ n, get body_id_text "id" ≠ VNumber n)
  ∧ Forall (λ t : object, ∃ n, t !! "id" = Some (VNumber n)) (todos initial)
  ∧ put_handler body_id_text initial =
      (mkResponse 404 (Text "Todo entity not found by id: 4"), initial).
Proof.
  assert (∀ n, get body_id_text "id" ≠ VNumber n) as Hnot by (intros n [=]).
  assert (Forall (λ t : object, ∃ n, t !! "id" = Some (VNumber n)) (todos initial)) as Hnum.
  { rewrite initial_eq. simpl. repeat constructor; eexists; reflexivity. }
  split; [exact Hnot |]. split; [exact Hnum |].
  exact (update_id_not_a_number initial body_id_text Hnot Hnum).
Defined.

(** X12.  Get and delete look the id up in the same way: for every path and
    every store, the answer of the delete handler is the answer the get
    handler gives on that store, status and body. *)
Theorem delete_answers_as_get (Number : string → number) (s : Store) (p : string) :
  fst (delete_handler Number p s) = fst (get_handler Number p s).
Proof.
  destruct (findIndex_cases (id_is (VNumber (Number p))) (todos s))
    as [(l1 & old & l2 & Hl & Hall & Hold)|Hnone].
  - by rewrite (delete_handler_hit Number p s l1 l2 old),
      (get_handler_hit Number p s l1 l2 old).
  - by rewrite delete_handler_miss, get_handler_miss.
Qed.

(** * Further properties of runs *)

(** X9.  After any run of requests, whatever the bodies and whatever was
    deleted on the way, the generator stands at its starting value plus the
    number of create requests of the run: it never goes down and nothing but
    a create moves it. *)
Theorem generator_counts_creates (Number : string → number) (rs : list Request) (s : Store) :
  idGenerator (snd (serve Number rs s)) = idGenerator s + Z.of_nat (count_creates rs).
Proof.
  revert s. induction rs as [|r rs IH]; intros s.
  - simpl. lia.
  - rewrite serve_cons. simpl snd. rewrite IH, handle_generator.
    destruct r; simpl count_creates; lia.
Qed.

(** X10.  The id invariant of the store: on every store reached from the
    seeded one by a run whose creates carry drafts, each Todo has an integer
    id below the generator, no integer occurs twice, and so no two positions
    of the collection hold ids that are [===]. *)
Theorem ids_stay_unique (Number : string → number) (rs : list Request) :
  Forall is_draft_request rs →
  well_numbered (snd (serve Number rs initial))
  ∧ unique_ids (todos (snd (serve Number rs initial))).
Proof.
  intros Hrs.
  assert (well_numbered (snd (serve Number rs initial))) as Hwn.
  { apply serve_well_numbered; [done | apply well_numbered_initial]. }
  split; [done | by apply well_numbered_unique].
Qed.

Lemma ids_stay_unique_witness :
  Forall is_draft_request
    [POST_todos draft_rust; PUT_todos body_id_1; DELETE_todos_id "2"; POST_todos draft_go]
  ∧ unique_ids (todos (snd (serve Number_digits
      [POST_todos draft_rust; PUT_todos body_id_1; DELETE_todos_id "2"; POST_todos draft_go]
      initial))).
Proof.
  assert (Forall is_draft_request
    [POST_todos draft_rust; PUT_todos body_id_1; DELETE_todos_id "2"; POST_todos draft_go])
    as Hrs by (repeat constructor).
  split; [exact Hrs |].
  exact (proj2 (ids_stay_unique Number_digits _ Hrs)).
Defined.

(** What one request does to the length of the collection. *)
Lemma handle_length (Number : string → number) (r : Request) (s : Store) :
  (length (todos (snd (handle Number r s)))
   + count_deleted [r] [fst (handle Number r s)])%nat
  = (length (todos s) + count_creates [r])%nat.
Proof.
  destruct r as [|item|p|item|p]; simpl.
  - lia.
  - rewrite length_app. simpl. lia.
  - unfold_handler. destruct (find _ _); simpl; lia.
  - destruct (findIndex_cases (id_is (get item "id")) (todos s))
      as [(l1 & old & l2 & Hl & Hall & Hold)|Hnone].
    + rewrite (put_handler_hit item s l1 l2 old) by done. simpl.
      rewrite Hl, !length_app. simpl. lia.
    + rewrite put_handler_miss by done. simpl. lia.
  - destruct (findIndex_cases (id_is (VNumber (Number p))) (todos s))
      as [(l1 & old & l2 & Hl & Hall & Hold)|Hnone].
    + rewrite (delete_handler_hit Number p s l1 l2 old) by done. simpl.
      rewrite Hl, !length_app. simpl. lia.
    + rewrite delete_handler_miss by done. simpl. lia.
Qed.

(** X13.  The size of the collection after any run: the size before, plus
    one for each create request, minus one for each delete request that was
    answered with a 200.  Gets, updates and deletes answered with the 404
    leave the size alone; a successful delete takes out exactly one Todo,
    also when several have the id. *)
Theorem collection_size (Number : string → number) (rs : list Request) (s : Store) :
  (length (todos (snd (serve Number rs s)))
   + count_deleted rs (fst (serve Number rs s)))%nat
  = (length (todos s) + count_creates rs)%nat.
Proof.
  revert s. induction rs as [|r rs IH]; intros s.
  - simpl. lia.
  - rewrite serve_cons. simpl fst. simpl snd.
    specialize (IH (snd (handle Number r s))).
    pose proof (handle_length Number r s) as Hstep.
    destruct r as [|item|p|item|p]; cbn [count_deleted count_creates] in Hstep |- *;
      try (destruct (bool_decide _)); lia.
Qed.

Lemma handle_in_creation_order (Number : string → number) (r : Request) (s : Store) :
  is_draft_request r → in_creation_order s → in_creation_order (snd (handle Number r s)).
Proof.
  intros Hr (zs & Hzs & Hsorted & Hlt).
  destruct r as [|item|p|item|p]; simpl in *.
  - by exists zs.
  - exists (zs ++ [idGenerator s]). unfold_handler. split; [| split].
    + rewrite !fmap_app, Hzs. simpl. do 2 f_equal.
      rewrite get_spread, Hr. apply get_lookup, lookup_singleton_eq.
    + apply StronglySorted_app_2; [| done | repeat constructor].
      intros x y Hx ->%list_elem_of_singleton.
      rewrite Forall_forall in Hlt. by apply Hlt.
    + apply Forall_app. split.
      * eapply Forall_impl; [exact Hlt | simpl; lia].
      * repeat constructor. lia.
  - exists zs. unfold_handler. by destruct (find _ _).
  - exists zs. split; [| split].
    + rewrite <- Hzs. apply update_ids_helper.
    + done.
    + destruct (findIndex_cases (id_is (get item "id")) (todos s))
        as [(l1 & old & l2 & Hl & Hall & Hold)|Hnone].
      * by rewrite (put_handler_hit item s l1 l2 old).
      * by rewrite put_handler_miss.
  - destruct (findIndex_cases (id_is (VNumber (Number p))) (todos s))
      as [(l1 & old & l2 & Hl & Hall & Hold)|Hnone].
    + rewrite (delete_handler_hit Number p s l1 l2 old) by done. simpl.
      rewrite Hl, fmap_app, fmap_cons in Hzs.
      symmetry in Hzs. apply fmap_app_inv in Hzs as (z1 & z2' & H1 & H2 & ->).
      symmetry in H2. apply fmap_cons_inv in H2 as (z & z2 & _ & H2 & ->).
      exists (z1 ++ z2). split; [| split].
      * simpl. by rewrite !fmap_app, H1, H2.
      * apply StronglySorted_app in Hsorted as (Hcross & Hs1 & Hs2).
        apply StronglySorted_cons in Hs2 as [_ Hs2].
        apply StronglySorted_app_2; [| done | done].
        intros x y Hx Hy. apply Hcross; [done | by right].
      * apply Forall_app in Hlt as [Hlt1 Hlt2]. apply Forall_cons in Hlt2 as [_ Hlt2].
        by apply Forall_app.
    + rewrite delete_handler_miss by done. by exists zs.
Qed.

Lemma in_creation_order_initial : in_creation_order initial.
Proof.
  exists [1; 2; 3; 4]. split; [reflexivity |]. split.
  - repeat constructor; lia.
  - change (idGenerator initial) with 5. repeat constructor; lia.
Qed.

Lemma serve_in_creation_order (Number : string → number) (rs : list Request) (s : Store) :
  Forall is_draft_request rs → in_creation_order s →
  in_creation_order (snd (serve Number rs s)).
Proof.
  revert s. induction rs as [|r rs IH]; intros s Hrs Hs; [done |].
  inversion Hrs; subst. rewrite serve_cons. simpl.
  apply IH; [done |]. by apply handle_in_creation_order.
Qed.

(** X14.  The listing keeps the order of creation: after any run from the
    seeded store whose creates carry drafts, GET /api/todos is answered with a
    200 and a collection whose ids are integers in strictly ascending order.
    Updates keep each Todo in its place and deletes close the gap without
    reordering. *)
Theorem listing_in_creation_order (Number : string → number) (rs : list Request) :
  Forall is_draft_request rs →
  ∃ (l : list object) (zs : list Z),
    fst (list_handler (snd (serve Number rs initial))) = mkResponse 200 (JsonArray l)
    ∧ (λ t, get t "id") <$> l = (λ z, VNumber (Int z)) <$> zs
    ∧ StronglySorted Z.lt zs.
Proof.
  intros Hrs.
  destruct (serve_in_creation_order Number rs initial Hrs in_creation_order_initial)
    as (zs & Hzs & Hsorted & _).
  by exists (todos (snd (serve Number rs initial))), zs.
Qed.

Lemma listing_in_creation_order_witness :
  Forall is_draft_request
    [POST_todos draft_rust; PUT_todos body_id_1; DELETE_todos_id "2"; POST_todos draft_go]
  ∧ (λ t, get t "id") <$> todos (snd (serve Number_digits
      [POST_todos draft_rust; PUT_todos body_id_1; DELETE_todos_id "2"; POST_todos draft_go]
      initial)) =
    [VNumber (Int 1); VNumber (Int 3); VNumber (Int 4); VNumber (Int 5); VNumber (Int 6)]
  ∧ ∃ (l : list object) (zs : list Z),
      fst (list_handler (snd (serve Number_digits
        [POST_todos draft_rust; PUT_todos body_id_1; DELETE_todos_id "2"; POST_todos draft_go]
        initial))) = mkResponse 200 (JsonArray l)
      ∧ (λ t, get t "id") <$> l = (λ z, VNumber (Int z)) <$> zs
      ∧ StronglySorted Z.lt zs.
Proof.
  assert (Forall is_draft_request
    [POST_todos draft_rust; PUT_todos body_id_1; DELETE_todos_id "2"; POST_todos draft_go])
    as Hrs by (repeat constructor).
  split; [exact Hrs |]. split; [reflexivity |].
  exact (listing_in_creation_order Number_digits _ Hrs).
Defined.

(** X15.  The shape of every answer: a handler answers either with status
    200 and a JSON body (a Todo, or the collection), or with status 404 and
    the not-found text for some id; it never sends a text with a 200, JSON
    with a 404, an empty body or any other status. *)
Theorem answer_shape (Number : string → number) (r : Request) (s : Store) :
  match body (fst (handle Number r s)) with
  | Json _ | JsonArray _ => status (fst (handle Number r s)) = 200
  | Text m => status (fst (handle Number r s)) = 404 ∧ ∃ v, m = not_found_message v
  | NoBody => False
  end.
Proof.
  destruct r as [|item|p|item|p]; simpl.
  - done.
  - done.
  - destruct (findIndex_cases (id_is (VNumber (Number p))) (todos s))
      as [(l1 & old & l2 & Hl & Hall & Hold)|Hnone].
    + by rewrite (get_handler_hit Number p s l1 l2 old).
    + rewrite get_handler_miss by done. simpl. eauto.
  - destruct (findIndex_cases (id_is (get item "id")) (todos s))
      as [(l1 & old & l2 & Hl & Hall & Hold)|Hnone].
    + by rewrite (put_handler_hit item s l1 l2 old).
    + rewrite put_handler_miss by done. simpl. eauto.
  - destruct (findIndex_cases (id_is (VNumber (Number p))) (todos s))
      as [(l1 & old & l2 & Hl & Hall & Hold)|Hnone].
    + by rewrite (delete_handler_hit Number p s l1 l2 old).
    + rewrite delete_handler_miss by done. simpl. eauto.
Qed.
